(** * fastapi-cacher: configuration model and cache contract

    A shallow embedding of [fastapi_cacher/config.py] (the pydantic model
    [CacheConfig] with its two validators) and of [fastapi_cacher/base.py]
    (the abstract class [BaseCache]), followed by the properties the
    specification states about the configuration model.

    Python values are modelled as follows: [int] is [Z] (unbounded), [str] is
    [string], [bool] is [bool], a [str] field whose default is [None] is
    [option string], [bytes] is [list Byte.byte].  A raised exception is the
    [Raise] branch of [result]. *)

From Stdlib Require Import ZArith String Ascii List Bool Lia.
From stdpp Require Import base option strings list.
Import ListNotations.

Local Open Scope string_scope.
Local Open Scope Z_scope.

(** ** Python preliminaries *)

Module Py.

(** The exceptions that occur in the two source files, plus the
    [ValidationError] that construction raises (it is a subclass of
    [ValueError]).  pydantic collects into it one line per failed check, in
    the order of the fields: the location, which is the field's name or the
    empty string for the model validator, and the message. *)
Inductive exn : Type :=
| ValueError (msg : string)
| ValidationError (errors : list (string * string))
| NotImplementedError.

Inductive result (A : Type) : Type :=
| Ok (a : A)
| Raise (e : exn).
Arguments Ok {A} a.
Arguments Raise {A} e.

Definition bind {A B : Type} (m : result A) (k : A -> result B) : result B :=
  match m with
  | Ok a => k a
  | Raise e => Raise e
  end.

(** Truth value of a [str]: only the empty string is falsy. *)
Definition truthy (s : string) : bool :=
  match s with EmptyString => false | String _ _ => true end.

(** Truth value of a [str]-or-[None]: [None] is falsy as well. *)
Definition truthy_opt (o : option string) : bool :=
  match o with None => false | Some s => truthy s end.

(** The builtin [all] over a list of truth values. *)
Definition all (l : list bool) : bool := forallb (fun b => b) l.

(** [x in t] for a tuple of strings. *)
Definition str_in (x : string) (t : list string) : bool :=
  existsb (String.eqb x) t.
Arguments str_in : simpl never.

(** [repr] of a [str] without quotes or escapes in it. *)
Definition repr_str (s : string) : string := "'" ++ s ++ "'".

Fixpoint join (sep : string) (l : list string) : string :=
  match l with
  | [] => ""
  | [x] => x
  | x :: tl => x ++ sep ++ join sep tl
  end.

(** [needle in hay] for strings. *)
Fixpoint contains (needle hay : string) : bool :=
  String.prefix needle hay ||
  match hay with
  | EmptyString => false
  | String _ tl => contains needle tl
  end.

End Py.

Import Py.

(** [result] with stdpp's monad notation: [x ← m; k] stops at the first
    [Raise]. *)
#[global] Instance result_ret : MRet result := @Ok.
#[global] Instance result_bind : MBind result := fun A B k m => Py.bind m k.

(** ** [fastapi_cacher/config.py] *)

Module Config.

(** [SUPPORTED_CACHE_TYPES = Literal[...]]; [get_args] of it is this
    tuple. *)
Definition SUPPORTED_CACHE_TYPES : list string :=
  ["SimpleCache"; "RedisCache"; "MongoCache"; "MemCache"].

(** What the f-string [{SUPPORTED_CACHE_TYPES}] renders: the [repr] of the
    [Literal] type. *)
Definition repr_SUPPORTED_CACHE_TYPES : string :=
  "typing.Literal[" ++ join ", " (map repr_str SUPPORTED_CACHE_TYPES) ++ "]".

(** Modelled from the spec: the module [fastapi_cacher.coder] is not among
    the sources.  It provides the class [Coder], the type of a pluggable
    serializer, and [JsonCoder], the JSON encode/decode pair that the source
    names as the default.  What the [coder] argument and field can hold: the
    class [JsonCoder] itself, as the default is written; an instance of a
    class deriving from [Coder], named by that class; any other object, named
    by its [repr]. *)
Inductive Coder : Type :=
| JsonCoder
| CoderInstance (cls : string)
| OtherObject (repr : string).

(** Modelled from the spec: [isinstance(v, Coder)] with the missing class
    [Coder].  A class is no instance of [Coder], [JsonCoder] included. *)
Definition isinstance_Coder (v : Coder) : bool :=
  match v with
  | CoderInstance _ => true
  | JsonCoder | OtherObject _ => false
  end.

(** The duration presets.  They are annotated [Final] and carry a value, so
    pydantic keeps them as class attributes: they are no fields, no keyword
    argument sets them, and every instance reads the class's value. *)
Definition ONE_HOUR : Z := 3600.
Definition ONE_DAY : Z := ONE_HOUR * 24.
Definition ONE_WEEK : Z := ONE_DAY * 7.
Definition ONE_MONTH : Z := ONE_DAY * 30.
Definition ONE_YEAR : Z := ONE_DAY * 365.

(** The fields of the model, in declaration order. *)
Record CacheConfig : Type := mkCacheConfig {
  cache_type : string;
  default_timeout : Z;
  app_space : string;
  coder : Coder;
  sliding_expiration : bool;
  simple_cache_threshold : Z;
  redis_url : string;
  redis_host : option string;
  redis_port : Z;
  redis_password : option string;
  redis_db : Z;
  mongo_url : string;
  mongo_database : string;
  mongo_collection : string;
  mongo_direct_connection : bool;
  memcache_host : string;
  memcache_port : Z;
  memcache_threshold : Z
}.

(** Attribute access to a preset through an instance. *)
Definition get_ONE_HOUR (_ : CacheConfig) : Z := ONE_HOUR.
Definition get_ONE_DAY (_ : CacheConfig) : Z := ONE_DAY.
Definition get_ONE_WEEK (_ : CacheConfig) : Z := ONE_WEEK.
Definition get_ONE_MONTH (_ : CacheConfig) : Z := ONE_MONTH.
Definition get_ONE_YEAR (_ : CacheConfig) : Z := ONE_YEAR.

(** The keyword arguments of [CacheConfig(...)]: every field may be left
    out ([None] here), each one given is of its field's type.  The two
    exceptions are [cache_type], which is any string, and [coder], which is
    any object: the checks of these two are part of construction. *)
Record Kwargs : Type := mkKwargs {
  kw_cache_type : option string;
  kw_default_timeout : option Z;
  kw_app_space : option string;
  kw_coder : option Coder;
  kw_sliding_expiration : option bool;
  kw_simple_cache_threshold : option Z;
  kw_redis_url : option string;
  kw_redis_host : option string;
  kw_redis_port : option Z;
  kw_redis_password : option string;
  kw_redis_db : option Z;
  kw_mongo_url : option string;
  kw_mongo_database : option string;
  kw_mongo_collection : option string;
  kw_mongo_direct_connection : option bool;
  kw_memcache_host : option string;
  kw_memcache_port : option Z;
  kw_memcache_threshold : option Z
}.

(** [CacheConfig()] *)
Definition no_kwargs : Kwargs :=
  mkKwargs None None None None None None None None None
           None None None None None None None None None.

(** [CacheConfig(cache_type=ct, redis_url=..., redis_host=...,
    redis_password=..., mongo_url=..., memcache_host=...)], each of the five
    connection arguments given or not. *)
Definition connection_kwargs (ct : string)
    (url host password murl mhost : option string) : Kwargs :=
  mkKwargs (Some ct) None None None None None url host None
           password None murl None None None mhost None None.



(** Each field takes the argument when given, else the declared default. *)
Definition populate (ct : string) (kw : Kwargs) : CacheConfig :=
  {| cache_type := ct;
     default_timeout := default 300 (kw_default_timeout kw);
     app_space := default "fastapi-cacher" (kw_app_space kw);
     coder := default JsonCoder (kw_coder kw);
     sliding_expiration := default false (kw_sliding_expiration kw);
     simple_cache_threshold := default 100 (kw_simple_cache_threshold kw);
     redis_url := default "" (kw_redis_url kw);
     redis_host := kw_redis_host kw;
     redis_port := default 6379 (kw_redis_port kw);
     redis_password := kw_redis_password kw;
     redis_db := default 0 (kw_redis_db kw);
     mongo_url := default "" (kw_mongo_url kw);
     mongo_database := default "fastapi-cacher" (kw_mongo_database kw);
     mongo_collection := default "cache" (kw_mongo_collection kw);
     mongo_direct_connection := default false (kw_mongo_direct_connection kw);
     memcache_host := default "" (kw_memcache_host kw);
     memcache_port := default 11211 (kw_memcache_port kw);
     memcache_threshold := default 100 (kw_memcache_threshold kw) |}.

(** [validate_cache_type], the field validator of [cache_type]. *)
Definition validate_cache_type (value : string) : result string :=
  if negb (str_in value SUPPORTED_CACHE_TYPES) then
    Raise (ValueError ("cache_type must be one of " ++ repr_SUPPORTED_CACHE_TYPES))
  else Ok value.

(** [validate_connection_attributes], the model validator run after the
    fields are set. *)
Definition validate_connection_attributes (values : CacheConfig)
    : result CacheConfig :=
  if String.eqb (cache_type values) "RedisCache" then
    if negb (truthy (redis_url values))
       && negb (all [truthy_opt (redis_host values);
                     truthy_opt (redis_password values)]) then
      Raise (ValueError
        ("With RedisCache, either redis_url must be provided or (redis_host, "
         ++ "redis_password) must be provided."))
    else Ok values
  else if String.eqb (cache_type values) "MongoCache" then
    if negb (truthy (mongo_url values)) then
      Raise (ValueError "With MongoCache, either mongo_url must be provided.")
    else Ok values
  else if String.eqb (cache_type values) "MemCache" then
    if negb (truthy (memcache_host values)) then
      Raise (ValueError "With Memcache, memcache_host must be provided.")
    else Ok values
  else Ok values.

(** *** Construction, as pydantic runs it *)

(** pydantic's own check of a value against the annotation
    [Literal[...]] of the field, with the message of its [literal_error]:
    the members quoted, separated by commas, the last one after "or". *)
Fixpoint expected_members (l : list string) : string :=
  match l with
  | [] => ""
  | [x] => repr_str x
  | [x; y] => repr_str x ++ " or " ++ repr_str y
  | x :: tl => repr_str x ++ ", " ++ expected_members tl
  end.

Definition check_literal (value : string) : result string :=
  if str_in value SUPPORTED_CACHE_TYPES then Ok value
  else Raise (ValidationError
                [("cache_type",
                  "Input should be " ++ expected_members SUPPORTED_CACHE_TYPES)]).

(** A [ValueError] raised by a validator reaches the caller inside a
    [ValidationError] whose message is the validator's, prefixed. *)
Definition collect {A : Type} (loc : string) (m : result A) : result A :=
  match m with
  | Raise (ValueError msg) =>
      Raise (ValidationError [(loc, "Value error, " ++ msg)])
  | other => other
  end.

(** The field [cache_type]: the default is taken as it is (defaults are not
    validated); a given value passes the annotation's check and then the
    field validator. *)
Definition field_cache_type (arg : option string) : result string :=
  match arg with
  | None => Ok "SimpleCache"
  | Some v =>
      v' ← check_literal v;
      collect "cache_type" (validate_cache_type v')
  end.

(** The field [coder]: the default is taken as it is; a given value passes
    the is-instance check that pydantic derives from the annotation [Coder]
    under [arbitrary_types_allowed], and is kept unchanged. *)
Definition field_coder (arg : option Coder) : result Coder :=
  match arg with
  | None => Ok JsonCoder
  | Some v =>
      if isinstance_Coder v then Ok v
      else Raise (ValidationError
                    [("coder", "Input should be an instance of Coder")])
  end.

(** The lines a field contributes to the [ValidationError]. *)
Definition line_errors {A : Type} (m : result A) : list (string * string) :=
  match m with
  | Raise (ValidationError errors) => errors
  | _ => []
  end.

(** Calling the class with keyword arguments.  Every field is checked, in
    declaration order, and the lines of all failed fields are raised
    together; the other fields are of their types and contribute none.  The
    model validator runs only when every field passed. *)
Definition Construct (kw : Kwargs) : result CacheConfig :=
  let ct := field_cache_type (kw_cache_type kw) in
  let cd := field_coder (kw_coder kw) in
  match ct, cd with
  | Ok ct', Ok _ =>
      collect "" (validate_connection_attributes (populate ct' kw))
  | _, _ => Raise (ValidationError (line_errors ct ++ line_errors cd))
  end.

(** *** After construction *)

(** The model's configuration.  The source's [class Config] sets
    [arbitrary_types_allowed] only; [frozen] is left at pydantic's default,
    and so is the validation of assignments, which is off. *)
Record ConfigDict : Type := mkConfigDict {
  arbitrary_types_allowed : bool;
  frozen : bool
}.

Definition model_config : ConfigDict :=
  {| arbitrary_types_allowed := true;
     frozen := false |}.

(** An attribute assignment [cfg.<field> = v], the value of the field's
    type. *)
Inductive assignment : Type :=
| set_cache_type (v : string)
| set_default_timeout (v : Z)
| set_app_space (v : string)
| set_coder (v : Coder)
| set_sliding_expiration (v : bool)
| set_simple_cache_threshold (v : Z)
| set_redis_url (v : string)
| set_redis_host (v : option string)
| set_redis_port (v : Z)
| set_redis_password (v : option string)
| set_redis_db (v : Z)
| set_mongo_url (v : string)
| set_mongo_database (v : string)
| set_mongo_collection (v : string)
| set_mongo_direct_connection (v : bool)
| set_memcache_host (v : string)
| set_memcache_port (v : Z)
| set_memcache_threshold (v : Z).

(** The instance after the assignment is stored. *)
Definition assign (a : assignment) (c : CacheConfig) : CacheConfig :=
  let '(mkCacheConfig f1 f2 f3 f4 f5 f6 f7 f8 f9
                      f10 f11 f12 f13 f14 f15 f16 f17 f18) := c in
  match a with
  | set_cache_type v =>
      mkCacheConfig v f2 f3 f4 f5 f6 f7 f8 f9
                    f10 f11 f12 f13 f14 f15 f16 f17 f18
  | set_default_timeout v =>
      mkCacheConfig f1 v f3 f4 f5 f6 f7 f8 f9
                    f10 f11 f12 f13 f14 f15 f16 f17 f18
  | set_app_space v =>
      mkCacheConfig f1 f2 v f4 f5 f6 f7 f8 f9
                    f10 f11 f12 f13 f14 f15 f16 f17 f18
  | set_coder v =>
      mkCacheConfig f1 f2 f3 v f5 f6 f7 f8 f9
                    f10 f11 f12 f13 f14 f15 f16 f17 f18
  | set_sliding_expiration v =>
      mkCacheConfig f1 f2 f3 f4 v f6 f7 f8 f9
                    f10 f11 f12 f13 f14 f15 f16 f17 f18
  | set_simple_cache_threshold v =>
      mkCacheConfig f1 f2 f3 f4 f5 v f7 f8 f9
                    f10 f11 f12 f13 f14 f15 f16 f17 f18
  | set_redis_url v =>
      mkCacheConfig f1 f2 f3 f4 f5 f6 v f8 f9
                    f10 f11 f12 f13 f14 f15 f16 f17 f18
  | set_redis_host v =>
      mkCacheConfig f1 f2 f3 f4 f5 f6 f7 v f9
                    f10 f11 f12 f13 f14 f15 f16 f17 f18
  | set_redis_port v =>
      mkCacheConfig f1 f2 f3 f4 f5 f6 f7 f8 v
                    f10 f11 f12 f13 f14 f15 f16 f17 f18
  | set_redis_password v =>
      mkCacheConfig f1 f2 f3 f4 f5 f6 f7 f8 f9
                    v f11 f12 f13 f14 f15 f16 f17 f18
  | set_redis_db v =>
      mkCacheConfig f1 f2 f3 f4 f5 f6 f7 f8 f9
                    f10 v f12 f13 f14 f15 f16 f17 f18
  | set_mongo_url v =>
      mkCacheConfig f1 f2 f3 f4 f5 f6 f7 f8 f9
                    f10 f11 v f13 f14 f15 f16 f17 f18
  | set_mongo_database v =>
      mkCacheConfig f1 f2 f3 f4 f5 f6 f7 f8 f9
                    f10 f11 f12 v f14 f15 f16 f17 f18
  | set_mongo_collection v =>
      mkCacheConfig f1 f2 f3 f4 f5 f6 f7 f8 f9
                    f10 f11 f12 f13 v f15 f16 f17 f18
  | set_mongo_direct_connection v =>
      mkCacheConfig f1 f2 f3 f4 f5 f6 f7 f8 f9
                    f10 f11 f12 f13 f14 v f16 f17 f18
  | set_memcache_host v =>
      mkCacheConfig f1 f2 f3 f4 f5 f6 f7 f8 f9
                    f10 f11 f12 f13 f14 f15 v f17 f18
  | set_memcache_port v =>
      mkCacheConfig f1 f2 f3 f4 f5 f6 f7 f8 f9
                    f10 f11 f12 f13 f14 f15 f16 v f18
  | set_memcache_threshold v =>
      mkCacheConfig f1 f2 f3 f4 f5 f6 f7 f8 f9
                    f10 f11 f12 f13 f14 f15 f16 f17 v
  end.

(** [BaseModel.__setattr__]: refused on a frozen model; otherwise the value
    is stored, and no validator runs again. *)
Definition setattr (c : CacheConfig) (a : assignment) : result CacheConfig :=
  if frozen model_config then
    Raise (ValidationError [("", "Instance is frozen")])
  else Ok (assign a c).

End Config.

Import Config.

(** ** [fastapi_cacher/base.py] *)

Module Base.

Definition bytes : Type := list Byte.byte.

(** The bodies of the four abstract methods of [BaseCache]: each one is
    [raise NotImplementedError].  The class cannot be instantiated; a
    backend overrides all four. *)
Module Abstract.
Definition get_with_ttl (key : string) : result (Z * option bytes) :=
  Raise NotImplementedError.
Definition get (key : string) : result (option bytes) :=
  Raise NotImplementedError.
Definition set (key : string) (value : bytes) (expire : option Z)
    : result unit :=
  Raise NotImplementedError.
Definition clear (namespace key : option string) : result Z :=
  Raise NotImplementedError.
End Abstract.

(** The interface a backend implements: the four methods with the
    signatures of [BaseCache].  [B] is the backend's state, which a call may
    change, and [now] is the clock read by the call, in whole seconds. *)
Class BaseCache (B : Type) : Type := {
  get_with_ttl : B -> Z -> string -> B * result (Z * option bytes);
  get : B -> Z -> string -> B * result (option bytes);
  set : B -> Z -> string -> bytes -> option Z -> B * result unit;
  clear : B -> Z -> option string -> option string -> B * result Z
}.

End Base.

Import Base.


(** ** Vocabulary of the specification *)

(** A string parameter is provided when it is given and not empty. *)
Definition provided (o : option string) : Prop :=
  exists s, o = Some s /\ s <> "".

(** The cache type a parameter set selects: the given one, else the
    default. *)
Definition selected_cache_type (kw : Kwargs) : string :=
  default "SimpleCache" (kw_cache_type kw).

(** The [coder] argument is well typed: left out, or an instance of
    [Coder]. *)
Definition coder_ok (kw : Kwargs) : bool :=
  match kw_coder kw with
  | None => true
  | Some v => isinstance_Coder v
  end.

Definition coder_well_typed (kw : Kwargs) : Prop := coder_ok kw = true.

(** The lines of the two field checks. *)
Definition cache_type_line : string * string :=
  ("cache_type", "Input should be " ++ expected_members SUPPORTED_CACHE_TYPES).

Definition coder_line : string * string :=
  ("coder", "Input should be an instance of Coder").

(** What the redis-like type requires: the URL, or both host and
    credential. *)
Definition redis_requirement (kw : Kwargs) : Prop :=
  provided (kw_redis_url kw) \/
  (provided (kw_redis_host kw) /\ provided (kw_redis_password kw)).

(** A failure message names a field, or lists a value, when the word occurs
    in it. *)
Definition mentions (msg : string) (words : list string) : Prop :=
  Forall (fun w => contains w msg = true) words.

(** Construction succeeds when it returns a Configuration. *)
Definition succeeds (kw : Kwargs) : Prop := exists c, Construct kw = Ok c.

(** Construction fails with an invalid-configuration error: the
    [ValidationError] pydantic raises. *)
Definition fails (kw : Kwargs) : Prop :=
  exists errors, Construct kw = Raise (ValidationError errors).

(** What the selected type requires of a parameter set, over the four
    supported types. *)
Definition connection_requirement (kw : Kwargs) : Prop :=
  selected_cache_type kw = "SimpleCache" \/
  (selected_cache_type kw = "RedisCache" /\ redis_requirement kw) \/
  (selected_cache_type kw = "MongoCache" /\ provided (kw_mongo_url kw)) \/
  (selected_cache_type kw = "MemCache" /\ provided (kw_memcache_host kw)).

(** What an instance of each external type must hold for the model validator
    to let it through. *)
Definition connection_invariant (c : CacheConfig) : Prop :=
  (cache_type c = "RedisCache" ->
   redis_url c <> "" \/
   (provided (redis_host c) /\ provided (redis_password c))) /\
  (cache_type c = "MongoCache" -> mongo_url c <> "") /\
  (cache_type c = "MemCache" -> memcache_host c <> "").

(** Two parameter sets agree on what construction examines: they select the
    same type, their [coder] arguments are both well typed or both not, and
    among the connection parameters of the selected type they provide the
    same ones. *)
Definition same_examined (kw1 kw2 : Kwargs) : Prop :=
  selected_cache_type kw1 = selected_cache_type kw2 /\
  coder_ok kw1 = coder_ok kw2 /\
  (selected_cache_type kw1 = "RedisCache" ->
   (provided (kw_redis_url kw1) <-> provided (kw_redis_url kw2)) /\
   (provided (kw_redis_host kw1) <-> provided (kw_redis_host kw2)) /\
   (provided (kw_redis_password kw1) <-> provided (kw_redis_password kw2))) /\
  (selected_cache_type kw1 = "MongoCache" ->
   (provided (kw_mongo_url kw1) <-> provided (kw_mongo_url kw2))) /\
  (selected_cache_type kw1 = "MemCache" ->
   (provided (kw_memcache_host kw1) <-> provided (kw_memcache_host kw2))).

(** [kw'] selects the type [kw] selects, has a well-typed [coder] argument
    if [kw] has, and provides every connection parameter that [kw]
    provides. *)
Definition provides_at_least (kw kw' : Kwargs) : Prop :=
  selected_cache_type kw = selected_cache_type kw' /\
  (coder_well_typed kw -> coder_well_typed kw') /\
  (provided (kw_redis_url kw) -> provided (kw_redis_url kw')) /\
  (provided (kw_redis_host kw) -> provided (kw_redis_host kw')) /\
  (provided (kw_redis_password kw) -> provided (kw_redis_password kw')) /\
  (provided (kw_mongo_url kw) -> provided (kw_mongo_url kw')) /\
  (provided (kw_memcache_host kw) -> provided (kw_memcache_host kw')).

(** ** Properties of the Python preliminaries *)

Section PyFacts.

Lemma truthy_nonempty (s : string) : truthy s = true <-> s <> "".
Proof. destruct s; simpl; split; congruence. Qed.

Lemma truthy_opt_provided (o : option string) :
  truthy_opt o = true <-> provided o.
Proof.
  unfold provided. destruct o as [s|]; simpl.
  - rewrite truthy_nonempty. split.
    + intros Hs. exists s. auto.
    + intros (s' & Heq & Hs). congruence.
  - split; [discriminate | intros (s' & Heq & _); discriminate].
Qed.

Lemma truthy_default_provided (o : option string) :
  truthy (default "" o) = true <-> provided o.
Proof.
  rewrite <- truthy_opt_provided. destruct o as [s|]; simpl; tauto.
Qed.

Lemma str_in_elem_of (x : string) (l : list string) :
  str_in x l = true <-> x ∈ l.
Proof.
  unfold str_in. rewrite existsb_exists, list_elem_of_In. split.
  - intros (y & Hin & Heq). apply String.eqb_eq in Heq. congruence.
  - intros Hin. exists x. split; [assumption | apply String.eqb_refl].
Qed.

Lemma str_in_not_elem_of (x : string) (l : list string) :
  str_in x l = false <-> x ∉ l.
Proof.
  rewrite <- str_in_elem_of. destruct (str_in x l); split; congruence.
Qed.

End PyFacts.

(** ** Properties of construction *)

Section Construction.

Implicit Types (kw : Kwargs) (c : CacheConfig).

(** The members of the supported tuple, one by one. *)
Lemma supported_cases (v : string) :
  v ∈ SUPPORTED_CACHE_TYPES ->
  v = "SimpleCache" \/ v = "RedisCache" \/ v = "MongoCache" \/ v = "MemCache".
Proof.
  unfold SUPPORTED_CACHE_TYPES. rewrite !elem_of_cons, elem_of_nil. tauto.
Qed.

Lemma supported_dec (v : string) :
  v ∈ SUPPORTED_CACHE_TYPES \/ v ∉ SUPPORTED_CACHE_TYPES.
Proof.
  destruct (str_in v SUPPORTED_CACHE_TYPES) eqn:Hin.
  - left. now apply str_in_elem_of.
  - right. now apply str_in_not_elem_of.
Qed.

(** The field [cache_type]: accepted exactly when the selected value is a
    supported one; the field validator then returns it as it is. *)
Lemma field_cache_type_outcome (arg : option string) :
  field_cache_type arg =
  if str_in (default "SimpleCache" arg) SUPPORTED_CACHE_TYPES
  then Ok (default "SimpleCache" arg)
  else Raise (ValidationError [cache_type_line]).
Proof.
  destruct arg as [v|]; [| reflexivity].
  unfold field_cache_type, check_literal, validate_cache_type.
  cbn [default from_option id].
  destruct (str_in v SUPPORTED_CACHE_TYPES) eqn:Hin; cbn.
  - now rewrite Hin.
  - reflexivity.
Qed.

(** The field [coder]: accepted exactly when the argument is well typed, and
    then it is the argument or the default. *)
Lemma field_coder_outcome kw :
  field_coder (kw_coder kw) =
  if coder_ok kw then Ok (default JsonCoder (kw_coder kw))
  else Raise (ValidationError [coder_line]).
Proof.
  unfold field_coder, coder_ok.
  destruct (kw_coder kw) as [v|]; [| reflexivity].
  destruct (isinstance_Coder v); reflexivity.
Qed.

(** The outcome of construction, by the two field checks. *)
Lemma Construct_outcome kw :
  Construct kw =
  match str_in (selected_cache_type kw) SUPPORTED_CACHE_TYPES, coder_ok kw with
  | true, true =>
      collect "" (validate_connection_attributes
                    (populate (selected_cache_type kw) kw))
  | true, false => Raise (ValidationError [coder_line])
  | false, true => Raise (ValidationError [cache_type_line])
  | false, false => Raise (ValidationError [cache_type_line; coder_line])
  end.
Proof.
  unfold Construct, selected_cache_type.
  rewrite field_cache_type_outcome, field_coder_outcome.
  destruct (str_in _ SUPPORTED_CACHE_TYPES), (coder_ok kw); reflexivity.
Qed.

(** Construction when both fields are accepted: the outcome is the model
    validator's. *)
Lemma Construct_selected kw :
  selected_cache_type kw ∈ SUPPORTED_CACHE_TYPES ->
  coder_well_typed kw ->
  Construct kw =
  collect "" (validate_connection_attributes
                (populate (selected_cache_type kw) kw)).
Proof.
  intros Hin Hcd. apply str_in_elem_of in Hin.
  rewrite Construct_outcome, Hin, Hcd. reflexivity.
Qed.

(** Construction when the type is refused: the first line of the error is
    that of [cache_type], whatever else is given. *)
Lemma Construct_refused kw :
  selected_cache_type kw ∉ SUPPORTED_CACHE_TYPES ->
  exists more, Construct kw = Raise (ValidationError (cache_type_line :: more)).
Proof.
  intros Hnot. apply str_in_not_elem_of in Hnot.
  rewrite Construct_outcome, Hnot. destruct (coder_ok kw); eauto.
Qed.

(** Construction when the [coder] argument is refused. *)
Lemma Construct_coder_refused kw :
  ~ coder_well_typed kw ->
  exists errors,
    Construct kw = Raise (ValidationError errors) /\ coder_line ∈ errors.
Proof.
  unfold coder_well_typed. intros Hcd. rewrite Construct_outcome.
  destruct (coder_ok kw); [congruence|].
  destruct (str_in _ _); eexists; (split; [reflexivity|]);
    rewrite !elem_of_cons; auto.
Qed.

(** The model validator returns the instance it was given. *)
Lemma validate_connection_attributes_Ok c c' :
  validate_connection_attributes c = Ok c' -> c' = c.
Proof.
  unfold validate_connection_attributes.
  repeat match goal with
         | |- context [if ?b then _ else _] => destruct b
         end; congruence.
Qed.

(** The model validator returns its argument or raises a [ValueError]. *)
Lemma validate_connection_attributes_cases c :
  validate_connection_attributes c = Ok c \/
  exists msg, validate_connection_attributes c = Raise (ValueError msg).
Proof.
  unfold validate_connection_attributes.
  repeat match goal with
         | |- context [if ?b then _ else _] => destruct b
         end; eauto.
Qed.

Lemma collect_Ok {A : Type} (loc : string) (m : result A) (a : A) :
  collect loc m = Ok a <-> m = Ok a.
Proof. destruct m as [x|[msg|errors|]]; simpl; split; congruence. Qed.

(** The model validator, branch by branch. *)
Lemma validate_redis c :
  cache_type c = "RedisCache" ->
  validate_connection_attributes c =
  if truthy (redis_url c)
     || (truthy_opt (redis_host c) && truthy_opt (redis_password c))
  then Ok c
  else Raise (ValueError
         ("With RedisCache, either redis_url must be provided or (redis_host, "
          ++ "redis_password) must be provided.")).
Proof.
  intros Hct. unfold validate_connection_attributes. rewrite Hct. simpl.
  destruct (truthy (redis_url c)), (truthy_opt (redis_host c)),
    (truthy_opt (redis_password c)); reflexivity.
Qed.

Lemma validate_mongo c :
  cache_type c = "MongoCache" ->
  validate_connection_attributes c =
  if truthy (mongo_url c) then Ok c
  else Raise (ValueError "With MongoCache, either mongo_url must be provided.").
Proof.
  intros Hct. unfold validate_connection_attributes. rewrite Hct. simpl.
  destruct (truthy (mongo_url c)); reflexivity.
Qed.

Lemma validate_memcache c :
  cache_type c = "MemCache" ->
  validate_connection_attributes c =
  if truthy (memcache_host c) then Ok c
  else Raise (ValueError "With Memcache, memcache_host must be provided.").
Proof.
  intros Hct. unfold validate_connection_attributes. rewrite Hct. simpl.
  destruct (truthy (memcache_host c)); reflexivity.
Qed.

Lemma validate_simple c :
  cache_type c = "SimpleCache" -> validate_connection_attributes c = Ok c.
Proof.
  intros Hct. unfold validate_connection_attributes. rewrite Hct.
  reflexivity.
Qed.

Lemma succeeds_not_fails kw : succeeds kw -> ~ fails kw.
Proof. intros [c Hc] (errors & He). congruence. Qed.

Lemma selected_given kw (v : string) :
  kw_cache_type kw = Some v -> selected_cache_type kw = v.
Proof. unfold selected_cache_type. now intros ->. Qed.



End Construction.

(** ** The model validator and the requirement it decides *)

Section Outcome.

Implicit Types (kw : Kwargs) (c : CacheConfig).

(** The requirement on an instance, as the validator's tests decide it. *)
Lemma connection_invariant_redis c :
  truthy (redis_url c)
  || (truthy_opt (redis_host c) && truthy_opt (redis_password c)) = true <->
  redis_url c <> "" \/ (provided (redis_host c) /\ provided (redis_password c)).
Proof.
  now rewrite orb_true_iff, andb_true_iff, truthy_nonempty,
    !truthy_opt_provided.
Qed.

(** The model validator decides [connection_invariant]. *)
Lemma validate_connection_attributes_decides c :
  (validate_connection_attributes c = Ok c /\ connection_invariant c) \/
  ((exists msg, validate_connection_attributes c = Raise (ValueError msg)) /\
   ~ connection_invariant c).
Proof.
  unfold connection_invariant.
  destruct (String.eqb_spec (cache_type c) "RedisCache") as [Hr|Hr].
  { rewrite (validate_redis c Hr).
    pose proof (connection_invariant_redis c) as Hinv.
    destruct (truthy (redis_url c)
              || (truthy_opt (redis_host c) && truthy_opt (redis_password c))).
    - left. split; [reflexivity|]. rewrite Hr.
      repeat split; try discriminate. intros _. now apply Hinv.
    - right. split; [eauto|]. intros (H & _ & _).
      apply Hinv in H; [discriminate | assumption]. }
  destruct (String.eqb_spec (cache_type c) "MongoCache") as [Hm|Hm].
  { rewrite (validate_mongo c Hm).
    pose proof (truthy_nonempty (mongo_url c)) as Hinv.
    destruct (truthy (mongo_url c)).
    - left. split; [reflexivity|]. rewrite Hm.
      repeat split; try discriminate. intros _. now apply Hinv.
    - right. split; [eauto|]. intros (_ & H & _).
      apply Hinv in H; [discriminate | assumption]. }
  destruct (String.eqb_spec (cache_type c) "MemCache") as [He|He].
  { rewrite (validate_memcache c He).
    pose proof (truthy_nonempty (memcache_host c)) as Hinv.
    destruct (truthy (memcache_host c)).
    - left. split; [reflexivity|]. rewrite He.
      repeat split; try discriminate. intros _. now apply Hinv.
    - right. split; [eauto|]. intros (_ & _ & H).
      apply Hinv in H; [discriminate | assumption]. }
  left. split; [| repeat split; intros; contradiction].
  unfold validate_connection_attributes.
  apply String.eqb_neq in Hr, Hm, He. now rewrite Hr, Hm, He.
Qed.

(** The requirement on the populated instance, read on the parameter set. *)
Lemma connection_invariant_populate kw (ct : string) :
  connection_invariant (populate ct kw) <->
  (ct = "RedisCache" -> redis_requirement kw) /\
  (ct = "MongoCache" -> provided (kw_mongo_url kw)) /\
  (ct = "MemCache" -> provided (kw_memcache_host kw)).
Proof.
  unfold connection_invariant, redis_requirement.
  cbn [populate cache_type redis_url redis_host redis_password mongo_url
       memcache_host].
  rewrite <- !truthy_nonempty, !truthy_default_provided. reflexivity.
Qed.

(** Which parameter sets meet [connection_requirement]. *)
Lemma connection_requirement_populate kw :
  connection_requirement kw <->
  selected_cache_type kw ∈ SUPPORTED_CACHE_TYPES /\
  connection_invariant (populate (selected_cache_type kw) kw).
Proof.
  rewrite connection_invariant_populate. unfold connection_requirement.
  split.
  - intros [H | [[H Hreq] | [[H Hreq] | [H Hreq]]]]; rewrite H;
      (split; [apply str_in_elem_of; reflexivity |]);
      repeat split; intros; solve [assumption | discriminate].
  - intros [Hin (Hr & Hm & He)].
    destruct (supported_cases _ Hin) as [H | [H | [H | H]]]; auto 10.
Qed.

(** When construction returns a Configuration, and which one. *)
Lemma Construct_Ok_iff kw c :
  Construct kw = Ok c <->
  c = populate (selected_cache_type kw) kw /\
  selected_cache_type kw ∈ SUPPORTED_CACHE_TYPES /\
  coder_well_typed kw /\
  connection_invariant c.
Proof.
  split.
  - rewrite Construct_outcome. unfold coder_well_typed.
    destruct (str_in _ _) eqn:Hin; destruct (coder_ok kw);
      try discriminate.
    rewrite collect_Ok. intros Hv.
    pose proof (validate_connection_attributes_Ok _ _ Hv) as ->.
    split; [reflexivity|].
    split; [now apply str_in_elem_of|].
    split; [reflexivity|].
    destruct (validate_connection_attributes_decides
                (populate (selected_cache_type kw) kw))
      as [[_ Hinv] | [[msg Hmsg] _]]; [assumption | congruence].
  - intros (-> & Hin & Hcd & Hinv). rewrite (Construct_selected kw Hin Hcd).
    destruct (validate_connection_attributes_decides
                (populate (selected_cache_type kw) kw))
      as [[-> _] | [_ Hno]]; [reflexivity | contradiction].
Qed.

(** A Configuration that construction returns is the populated one, and the
    model validator accepts it. *)
Lemma Construct_Ok_inv kw c :
  Construct kw = Ok c ->
  c = populate (selected_cache_type kw) kw /\
  selected_cache_type kw ∈ SUPPORTED_CACHE_TYPES /\
  validate_connection_attributes c = Ok c.
Proof.
  intros H. apply Construct_Ok_iff in H as (Hc & Hin & _ & Hinv).
  split; [assumption | split; [assumption |]].
  destruct (validate_connection_attributes_decides c)
    as [[Hok _] | [_ Hno]]; [assumption | contradiction].
Qed.

(** A failure past the checks of the fields is the model validator's. *)
Lemma Construct_Raise_inv kw (e : exn) :
  selected_cache_type kw ∈ SUPPORTED_CACHE_TYPES ->
  coder_well_typed kw ->
  Construct kw = Raise e ->
  exists msg,
    e = ValidationError [("", "Value error, " ++ msg)] /\
    validate_connection_attributes (populate (selected_cache_type kw) kw)
    = Raise (ValueError msg).
Proof.
  intros Hin Hcd. rewrite (Construct_selected kw Hin Hcd).
  destruct (validate_connection_attributes_cases
              (populate (selected_cache_type kw) kw))
    as [-> | (msg & ->)]; cbn [collect]; [discriminate|].
  intros [= <-]. eauto.
Qed.

(** The three messages of the model validator. *)
Lemma validate_connection_attributes_message c (msg : string) :
  validate_connection_attributes c = Raise (ValueError msg) ->
  (cache_type c = "RedisCache" /\
   mentions msg ["redis_url"; "redis_host"; "redis_password"]) \/
  (cache_type c = "MongoCache" /\ mentions msg ["mongo_url"]) \/
  (cache_type c = "MemCache" /\ mentions msg ["memcache_host"]).
Proof.
  unfold validate_connection_attributes, mentions.
  destruct (String.eqb_spec (cache_type c) "RedisCache") as [Hr|Hr].
  { destruct (_ && _); [|discriminate]. intros [= <-]. left.
    split; [assumption|]. repeat (constructor; [reflexivity|]). constructor. }
  destruct (String.eqb_spec (cache_type c) "MongoCache") as [Hm|Hm].
  { destruct (negb _); [|discriminate]. intros [= <-]. right. left.
    split; [assumption|]. repeat (constructor; [reflexivity|]). constructor. }
  destruct (String.eqb_spec (cache_type c) "MemCache") as [He|He].
  { destruct (negb _); [|discriminate]. intros [= <-]. right. right.
    split; [assumption|]. repeat (constructor; [reflexivity|]). constructor. }
  discriminate.
Qed.

End Outcome.

Ltac words_occur := repeat (constructor; [reflexivity|]); constructor.

(** ** The claims about construction *)







(** C3. A [cache_type] outside the four supported values makes construction
    fail with a validation error whose first line is at [cache_type] and
    lists the four values, whatever the other arguments are; the field
    validator of the source, called on such a value, raises a [ValueError]
    whose message lists them too. *)
Theorem Construct_unsupported_cache_type (kw : Kwargs) (v : string) :
  kw_cache_type kw = Some v ->
  v ∉ SUPPORTED_CACHE_TYPES ->
  (exists msg more,
     Construct kw = Raise (ValidationError (("cache_type", msg) :: more)) /\
     mentions msg SUPPORTED_CACHE_TYPES) /\
  (exists msg, validate_cache_type v = Raise (ValueError msg) /\
               mentions msg SUPPORTED_CACHE_TYPES).
Proof.
  intros Hct Hnot. split.
  - rewrite <- (selected_given kw v Hct) in Hnot.
    destruct (Construct_refused kw Hnot) as [more ->].
    eexists _, more. split; [reflexivity | words_occur].
  - apply str_in_not_elem_of in Hnot.
    unfold validate_cache_type. rewrite Hnot.
    eexists. split; [reflexivity | words_occur].
Qed.

(** Witness of C3: [cache_type = "bogus"]. *)
Lemma Construct_unsupported_cache_type_witness :
  exists msg more,
    Construct (connection_kwargs "bogus" None None None None None)
    = Raise (ValidationError (("cache_type", msg) :: more)) /\
    mentions msg SUPPORTED_CACHE_TYPES.
Proof.
  apply (Construct_unsupported_cache_type
           (connection_kwargs "bogus" None None None None None) "bogus").
  - reflexivity.
  - apply str_in_not_elem_of. reflexivity.
Defined.




(** C10. Construction without any argument succeeds, with
    [cache_type = "SimpleCache"], [default_timeout = 300],
    [app_space = "fastapi-cacher"], the JSON coder, and
    [sliding_expiration] off. *)
Theorem Construct_no_kwargs :
  exists c, Construct no_kwargs = Ok c /\
            cache_type c = "SimpleCache" /\
            default_timeout c = 300 /\
            app_space c = "fastapi-cacher" /\
            coder c = JsonCoder /\
            sliding_expiration c = false.
Proof. eexists. repeat split. Qed.




(** C6. The duration presets are their durations in whole seconds, each
    built from the previous ones as the source writes them, and an instance
    reads the same values whatever it was constructed from. *)
Theorem duration_presets :
  ONE_HOUR = 3600 /\
  ONE_DAY = 24 * ONE_HOUR /\ ONE_DAY = 86400 /\
  ONE_WEEK = 7 * ONE_DAY /\ ONE_WEEK = 604800 /\
  ONE_MONTH = 30 * ONE_DAY /\ ONE_MONTH = 2592000 /\
  ONE_YEAR = 365 * ONE_DAY /\ ONE_YEAR = 31536000 /\
  forall c : CacheConfig,
    get_ONE_HOUR c = 3600 /\ get_ONE_DAY c = 86400 /\
    get_ONE_WEEK c = 604800 /\ get_ONE_MONTH c = 2592000 /\
    get_ONE_YEAR c = 31536000.
Proof.
  unfold get_ONE_HOUR, get_ONE_DAY, get_ONE_WEEK, get_ONE_MONTH, get_ONE_YEAR,
    ONE_YEAR, ONE_MONTH, ONE_WEEK, ONE_DAY, ONE_HOUR.
  repeat split; lia.
Qed.

(** ** The claim about mutation *)

(** Counterexample to C8 as stated: on the Configuration that
    [CacheConfig()] returns, the assignment [cfg.default_timeout = 5]
    succeeds and the field changes from 300 to 5; so a later operation does
    change a field. *)
Lemma CacheConfig_assignment_changes_field :
  (exists c c',
     Construct no_kwargs = Ok c /\
     setattr c (set_default_timeout 5) = Ok c' /\
     default_timeout c = 300 /\ default_timeout c' = 5) /\
  ~ (forall kw c a c',
       Construct kw = Ok c -> setattr c a = Ok c' -> c' = c).
Proof.
  split.
  - do 2 eexists. repeat split.
  - intros H.
    specialize (H no_kwargs _ (set_default_timeout 5) _ eq_refl eq_refl).
    discriminate H.
Qed.

(** C8, amended.  Validation does not alter a Configuration: the one
    construction returns holds exactly the given or default value of every
    field, and the model validator run on it again returns it as it is.  The
    model is not frozen, though: an attribute assignment made afterwards
    succeeds and stores the value, with no validator run. *)
Theorem CacheConfig_after_validation (kw : Kwargs) (c : CacheConfig) :
  Construct kw = Ok c ->
  c = populate (selected_cache_type kw) kw /\
  validate_connection_attributes c = Ok c /\
  forall a : assignment, setattr c a = Ok (assign a c).
Proof.
  intros H. apply Construct_Ok_inv in H as (Hc & _ & Hv).
  repeat split; auto.
Qed.

(** Witness of the amended C8: a memcache-like Configuration, validated
    again. *)
Lemma CacheConfig_after_validation_witness :
  validate_connection_attributes
    (populate "MemCache"
       (connection_kwargs "MemCache" None None None None (Some "127.0.0.1")))
  = Ok (populate "MemCache"
          (connection_kwargs "MemCache" None None None None (Some "127.0.0.1"))).
Proof.
  apply (CacheConfig_after_validation
           (connection_kwargs "MemCache" None None None None (Some "127.0.0.1"))
           (populate "MemCache"
              (connection_kwargs "MemCache" None None None None
                 (Some "127.0.0.1")))).
  reflexivity.
Defined.

(** ** Further properties of construction *)

(** X1. Among parameter sets whose arguments are of their fields' types,
    construction examines the selected type, whether the [coder] argument is
    an instance of [Coder], and, of the connection parameters, only those of
    the selected type and only whether each is provided: two parameter sets
    that agree on this fail with the same error or both succeed.  An empty
    string counts as a parameter left out. *)
Theorem Construct_examines_only (kw1 kw2 : Kwargs) (e : exn) :
  same_examined kw1 kw2 ->
  (Construct kw1 = Raise e <-> Construct kw2 = Raise e).
Proof.
  intros (Hsel & Hcd & Hr & Hm & He).
  rewrite !Construct_outcome, <- Hsel, <- Hcd.
  destruct (str_in (selected_cache_type kw1) SUPPORTED_CACHE_TYPES) eqn:Hin;
    destruct (coder_ok kw1); try reflexivity.
  apply str_in_elem_of in Hin.
  destruct (supported_cases _ Hin) as [H | [H | [H | H]]]; rewrite H in *.
  - rewrite !validate_simple by reflexivity. cbn. split; discriminate.
  - rewrite !validate_redis by reflexivity.
    cbn [populate redis_url redis_host redis_password].
    destruct (Hr eq_refl) as (Hu & Hh & Hp).
    rewrite <- !truthy_default_provided in Hu.
    rewrite <- !truthy_opt_provided in Hh, Hp.
    destruct (truthy (default "" (kw_redis_url kw1))),
      (truthy (default "" (kw_redis_url kw2))),
      (truthy_opt (kw_redis_host kw1)), (truthy_opt (kw_redis_host kw2)),
      (truthy_opt (kw_redis_password kw1)),
      (truthy_opt (kw_redis_password kw2));
      cbn; try (split; discriminate); try reflexivity;
      exfalso; intuition discriminate.
  - rewrite !validate_mongo by reflexivity. cbn [populate mongo_url].
    pose proof (Hm eq_refl) as Hu.
    rewrite <- !truthy_default_provided in Hu.
    destruct (truthy (default "" (kw_mongo_url kw1))),
      (truthy (default "" (kw_mongo_url kw2)));
      cbn; try (split; discriminate); try reflexivity;
      exfalso; intuition discriminate.
  - rewrite !validate_memcache by reflexivity. cbn [populate memcache_host].
    pose proof (He eq_refl) as Hu.
    rewrite <- !truthy_default_provided in Hu.
    destruct (truthy (default "" (kw_memcache_host kw1))),
      (truthy (default "" (kw_memcache_host kw2)));
      cbn; try (split; discriminate); try reflexivity;
      exfalso; intuition discriminate.
Qed.

(** Witness of X1: two document-store sets, both without a usable
    [mongo_url] (one gives the empty string, one leaves it out) and otherwise
    different, fail with the same error. *)
Lemma Construct_examines_only_witness :
  Construct (connection_kwargs "MongoCache" None None None None
               (Some "10.0.0.1"))
  = Raise (ValidationError
      [("", "Value error, With MongoCache, either mongo_url must be provided.")]).
Proof.
  apply (Construct_examines_only
           (connection_kwargs "MongoCache" (Some "redis://cache") None None
              (Some "") None)
           (connection_kwargs "MongoCache" None None None None
              (Some "10.0.0.1"))).
  - split; [reflexivity|].
    split; [reflexivity|].
    split; [discriminate|].
    split; [|discriminate].
    intros _. split; intros (s & Hs & Hne); [|discriminate].
    injection Hs as <-. now contradiction Hne.
  - reflexivity.
Defined.

(** X2. Among parameter sets whose arguments are of their fields' types,
    construction succeeds exactly when the [coder] argument is left out or
    an instance of [Coder], the selected type is one of the four supported
    ones, and that type's requirement is met: nothing for SimpleCache; the
    URL, or host and password, for RedisCache; the URL for MongoCache; the
    host for MemCache. *)
Theorem Construct_succeeds_iff (kw : Kwargs) :
  succeeds kw <-> coder_well_typed kw /\ connection_requirement kw.
Proof.
  rewrite connection_requirement_populate. unfold succeeds. split.
  - intros [c Hc]. apply Construct_Ok_iff in Hc as (-> & Hin & Hcd & Hinv).
    auto.
  - intros (Hcd & Hin & Hinv). eexists. apply Construct_Ok_iff. eauto.
Qed.

(** X3. Among parameter sets whose arguments are of their fields' types,
    every failure of construction is a validation error with one of five
    causes, and its lines tell which: an unsupported type (a line at
    [cache_type], listing the supported values), a [coder] argument that is
    no instance of [Coder] (a line at [coder]), or an unmet requirement of
    RedisCache, MongoCache or MemCache (a single line at the model, naming
    the parameters that type needs). *)
Theorem Construct_failure_cause (kw : Kwargs) (e : exn) :
  Construct kw = Raise e ->
  exists errors,
    e = ValidationError errors /\
    (((selected_cache_type kw ∉ SUPPORTED_CACHE_TYPES) /\
      exists msg, ("cache_type", msg) ∈ errors /\
                  mentions msg SUPPORTED_CACHE_TYPES) \/
     (~ coder_well_typed kw /\
      exists msg, ("coder", msg) ∈ errors /\ mentions msg ["Coder"]) \/
     (selected_cache_type kw = "RedisCache" /\ ~ redis_requirement kw /\
      exists msg, errors = [("", msg)] /\
                  mentions msg ["redis_url"; "redis_host"; "redis_password"]) \/
     (selected_cache_type kw = "MongoCache" /\ ~ provided (kw_mongo_url kw) /\
      exists msg, errors = [("", msg)] /\ mentions msg ["mongo_url"]) \/
     (selected_cache_type kw = "MemCache" /\
      ~ provided (kw_memcache_host kw) /\
      exists msg, errors = [("", msg)] /\ mentions msg ["memcache_host"])).
Proof.
  intros HC.
  destruct (supported_dec (selected_cache_type kw)) as [Hin | Hnot].
  - destruct (coder_ok kw) eqn:Hcd.
    + destruct (Construct_Raise_inv kw e Hin Hcd HC) as (msg & -> & Hv).
      eexists. split; [reflexivity|]. right. right.
      assert (Hinv : ~ connection_invariant
                         (populate (selected_cache_type kw) kw)).
      { destruct (validate_connection_attributes_decides
                    (populate (selected_cache_type kw) kw))
          as [[Hok _] | [_ Hno]]; [congruence | assumption]. }
      rewrite connection_invariant_populate in Hinv.
      destruct (supported_cases _ Hin) as [H | [H | [H | H]]]; rewrite H in *.
      * rewrite validate_simple in Hv by reflexivity. discriminate.
      * left. rewrite validate_redis in Hv by reflexivity.
        destruct (_ || _) in Hv; [discriminate|]. injection Hv as <-.
        repeat split.
        -- intros Hreq. apply Hinv.
           repeat split; intros; solve [assumption | discriminate].
        -- eexists. split; [reflexivity | words_occur].
      * right. left. rewrite validate_mongo in Hv by reflexivity.
        destruct (truthy _) in Hv; [discriminate|]. injection Hv as <-.
        repeat split.
        -- intros Hreq. apply Hinv.
           repeat split; intros; solve [assumption | discriminate].
        -- eexists. split; [reflexivity | words_occur].
      * right. right. rewrite validate_memcache in Hv by reflexivity.
        destruct (truthy _) in Hv; [discriminate|]. injection Hv as <-.
        repeat split.
        -- intros Hreq. apply Hinv.
           repeat split; intros; solve [assumption | discriminate].
        -- eexists. split; [reflexivity | words_occur].
    + assert (Hno : ~ coder_well_typed kw)
        by (unfold coder_well_typed; congruence).
      destruct (Construct_coder_refused kw Hno) as (errors & He & Hline).
      rewrite He in HC. injection HC as <-.
      exists errors. split; [reflexivity|]. right. left.
      split; [assumption|]. eexists. split; [exact Hline | words_occur].
  - destruct (Construct_refused kw Hnot) as [more He].
    rewrite He in HC. injection HC as <-.
    eexists. split; [reflexivity|]. left. split; [assumption|].
    eexists. split; [apply elem_of_cons; left; reflexivity | words_occur].
Qed.

(** Witness of X3: a memcache-like set without host. *)
Lemma Construct_failure_cause_witness :
  exists msg,
    [("", "Value error, With Memcache, memcache_host must be provided.")]
    = [("", msg)] /\
    mentions msg ["memcache_host"].
Proof.
  destruct (Construct_failure_cause
              (connection_kwargs "MemCache" (Some "redis://cache") None None
                 None None)
              (ValidationError
                 [("", "Value error, With Memcache, memcache_host must be provided.")])
              eq_refl)
    as (errors & He & [[Hnot _] | [[Hcd _] | [[Hsel _] | [[Hsel _] | (_ & _ & Hmsg)]]]]).
  - contradiction Hnot. apply str_in_elem_of. reflexivity.
  - contradiction Hcd. reflexivity.
  - discriminate Hsel.
  - discriminate Hsel.
  - injection He as <-. exact Hmsg.
Defined.

(** X4. Providing more never hurts: when a parameter set is accepted, so is
    every set that selects the same type, keeps the [coder] argument well
    typed and provides at least the same connection parameters. *)
Theorem Construct_monotone (kw kw' : Kwargs) :
  provides_at_least kw kw' ->
  succeeds kw ->
  succeeds kw'.
Proof.
  intros (Hsel & Hc & Hu & Hh & Hp & Hm & He) [c Hc'].
  apply Construct_Ok_iff in Hc' as (-> & Hin & Hcd & Hinv).
  exists (populate (selected_cache_type kw') kw').
  apply Construct_Ok_iff. rewrite <- Hsel.
  split; [reflexivity | split; [assumption | split; [auto |]]].
  rewrite connection_invariant_populate in *.
  unfold redis_requirement in *. intuition.
Qed.

(** Witness of X4: a redis-like set with only a URL, then with a host
    added. *)
Lemma Construct_monotone_witness :
  succeeds (connection_kwargs "RedisCache" (Some "redis://cache:6379")
              (Some "cache") None None None).
Proof.
  apply (Construct_monotone
           (connection_kwargs "RedisCache" (Some "redis://cache:6379")
              None None None None)).
  - split; [reflexivity|].
    split; [intros _; reflexivity|].
    split; [intros _; eexists; split; [reflexivity | discriminate] |].
    repeat split; intros (s & Hs & _); discriminate.
  - eexists. reflexivity.
Defined.

(** X5. What a constructed Configuration guarantees to its consumer: its
    [cache_type] is one of the four supported values, and the connection
    fields of that type are usable: for RedisCache a non-empty [redis_url] or
    both [redis_host] and [redis_password] set and non-empty, for MongoCache a
    non-empty [mongo_url], for MemCache a non-empty [memcache_host]. *)
Theorem Construct_establishes_invariant (kw : Kwargs) (c : CacheConfig) :
  Construct kw = Ok c ->
  cache_type c ∈ SUPPORTED_CACHE_TYPES /\ connection_invariant c.
Proof.
  intros H. apply Construct_Ok_iff in H as (-> & Hin & _ & Hinv).
  split; assumption.
Qed.

(** Witness of X5: a redis-like Configuration built from host and
    password. *)
Lemma Construct_establishes_invariant_witness :
  connection_invariant
    (populate "RedisCache"
       (connection_kwargs "RedisCache" None (Some "cache") (Some "s3cret")
          None None)).
Proof.
  apply (Construct_establishes_invariant
           (connection_kwargs "RedisCache" None (Some "cache") (Some "s3cret")
              None None)).
  reflexivity.
Defined.

(** X6. The model validator on its own: it returns the instance it was given
    exactly when the instance meets the requirement of its type, and raises a
    [ValueError] otherwise.  An instance whose [cache_type] is none of
    RedisCache, MongoCache and MemCache, a supported one or not, always
    passes. *)
Theorem validate_connection_attributes_spec (c : CacheConfig) :
  (validate_connection_attributes c = Ok c <-> connection_invariant c) /\
  (~ connection_invariant c ->
   exists msg, validate_connection_attributes c = Raise (ValueError msg)) /\
  (cache_type c <> "RedisCache" -> cache_type c <> "MongoCache" ->
   cache_type c <> "MemCache" -> validate_connection_attributes c = Ok c).
Proof.
  destruct (validate_connection_attributes_decides c)
    as [[Hok Hinv] | [[msg Hmsg] Hno]].
  - split; [split; auto |].
    split; [intros Hno; contradiction | auto].
  - split; [split; [congruence | contradiction] |].
    split; [eauto |].
    intros Hr Hm He. contradiction Hno.
    repeat split; intros; contradiction.
Qed.

(** X7. The field validator agrees with the annotation of the field: a value
    the annotation's check lets through is returned unchanged by
    [validate_cache_type], so within construction its [ValueError] is never
    raised, and no line of a failure of construction carries its message. *)
Theorem validate_cache_type_never_raises_in_Construct :
  (forall v v' : string,
     check_literal v = Ok v' -> validate_cache_type v' = Ok v') /\
  (forall (kw : Kwargs) (errors : list (string * string)) (loc msg : string),
     Construct kw = Raise (ValidationError errors) ->
     (loc, "Value error, cache_type must be one of " ++ msg) ∉ errors).
Proof.
  split.
  - intros v v'. unfold check_literal, validate_cache_type.
    destruct (str_in v SUPPORTED_CACHE_TYPES) eqn:Hin; [|discriminate].
    intros [= <-]. now rewrite Hin.
  - intros kw errors loc msg HC Hline.
    rewrite Construct_outcome in HC.
    destruct (str_in _ _) eqn:Hin; destruct (coder_ok kw) eqn:Hcd.
    + destruct (validate_connection_attributes_cases
                  (populate (selected_cache_type kw) kw))
        as [Hok | (m & Hm)]; rewrite ?Hok, ?Hm in HC; cbn [collect] in HC;
        [discriminate|].
      injection HC as <-.
      apply elem_of_cons in Hline as [Hline | Hline];
        [| now apply elem_of_nil in Hline].
      injection Hline as _ Hmsg.
      change ("" +:+ m) with m in Hmsg. subst m.
      revert Hm. unfold validate_connection_attributes.
      repeat match goal with
             | |- context [if ?b then _ else _] => destruct b
             end; discriminate.
    + injection HC as <-.
      apply elem_of_cons in Hline as [Hline | Hline];
        [discriminate Hline | now apply elem_of_nil in Hline].
    + injection HC as <-.
      apply elem_of_cons in Hline as [Hline | Hline];
        [discriminate Hline | now apply elem_of_nil in Hline].
    + injection HC as <-.
      apply elem_of_cons in Hline as [Hline | Hline];
        [discriminate Hline |].
      apply elem_of_cons in Hline as [Hline | Hline];
        [discriminate Hline | now apply elem_of_nil in Hline].
Qed.

